(** * GELF stream core factory (stream_gelf.go)

    A shallow embedding of [GelfStreamZapFactory.New], of the GELF encoder
    configuration and of the GELF level encoder, together with the parts of
    the Go runtime, of viper, of pkg/errors and of zap that the factory
    calls. *)

From Stdlib Require Import ZArith String Ascii List Bool Lia DecimalString.
From stdpp Require Import base option gmap strings list fin_maps.

Open Scope string_scope.
Open Scope Z_scope.

(** ** Go runtime: strings *)

Module strings.

(** ASCII lower-casing of one byte, as [bytes.ToLower] and
    [strings.ToLower] do on ASCII input. *)
Definition lowerByte (c : ascii) : ascii :=
  let n := nat_of_ascii c in
  if ((65 <=? n)%nat && (n <=? 90)%nat)%bool then ascii_of_nat (n + 32) else c.

Fixpoint ToLower (s : string) : string :=
  match s with
  | EmptyString => EmptyString
  | String c r => String (lowerByte c) (ToLower r)
  end.

(** [splitFrom sep s skip cur] scans [s]; [skip] bytes of a separator
    already recognised remain to be dropped, [cur] is the piece being
    collected. *)
Fixpoint splitFrom (sep s : string) (skip : nat) (cur : string) : list string :=
  match s with
  | EmptyString => [cur]
  | String c r =>
      match skip with
      | S k => splitFrom sep r k cur
      | O =>
          if String.prefix sep s
          then cur :: splitFrom sep r (String.length sep - 1)%nat EmptyString
          else splitFrom sep r O (cur ++ String c EmptyString)
      end
  end.

(** [strings.Split(s, sep)]: the pieces of [s] between the occurrences of
    [sep]; with an empty separator the string is exploded byte by byte. *)
Definition Split (s sep : string) : list string :=
  match sep with
  | EmptyString => (fun c => String c EmptyString) <$> list_ascii_of_string s
  | _ => splitFrom sep s O EmptyString
  end.

End strings.

(** ** Go runtime: control flow of a function body

    A block of statements either falls through with its local state, leaves
    the function through a [return], or panics. *)

Inductive flow (R A : Type) : Type :=
  | Next (a : A)
  | Return (r : R)
  | Panic (msg : string).
Arguments Next {R A} a.
Arguments Return {R A} r.
Arguments Panic {R A} msg.

Definition flow_bind {R A B} (m : flow R A) (k : A -> flow R B) : flow R B :=
  match m with
  | Next a => k a
  | Return r => Return r
  | Panic msg => Panic msg
  end.

Declare Scope flow_scope.
Delimit Scope flow_scope with flow.
Notation "x <- m ;; k" := (flow_bind m (fun x => k))
  (at level 100, m at next level, right associativity) : flow_scope.

(** Indexing a slice at 0: a run-time panic on an empty slice. *)
Definition index0 {R} (l : list string) : flow R string :=
  match l with
  | x :: _ => Next x
  | [] => Panic "index out of range [0] with length 0"
  end.

(** ** pkg/errors *)

(** Go [error] values met here: a leaf error carrying its text, and the two
    wrappers of pkg/errors (the recorded program counters of [withStack]
    are not modelled). *)
Inductive error : Type :=
  | errorString (s : string)
  | withMessage (cause : error) (msg : string)
  | withStack (inner : error).

Fixpoint Error (e : error) : string :=
  match e with
  | errorString s => s
  | withMessage cause msg => msg ++ ": " ++ Error cause
  | withStack inner => Error inner
  end.

Module errors.

(** [errors.Wrap(err, message)]: nil stays nil. *)
Definition Wrap (err : option error) (message : string) : option error :=
  match err with
  | None => None
  | Some e => Some (withStack (withMessage e message))
  end.

(** [errors.Cause(err)]: strips every wrapper. *)
Fixpoint Cause (e : error) : error :=
  match e with
  | errorString s => errorString s
  | withMessage cause _ => Cause cause
  | withStack inner => Cause inner
  end.

(** [errors.Unwrap]-style single step (the wrapped error, if any). *)
Definition Unwrap (e : error) : option error :=
  match e with
  | errorString _ => None
  | withMessage cause _ => Some cause
  | withStack inner => Some inner
  end.

End errors.

(** ** Configuration values and viper *)

(** The dynamically typed values ([interface{}]) a configuration tree holds
    at its leaves, and that end up in a logger's initial fields. *)
Inductive Value : Type :=
  | VNil
  | VString (s : string)
  | VBool (b : bool)
  | VInt (i : Z).

Module strconv.

Definition FormatBool (b : bool) : string := if b then "true" else "false".

Definition Itoa (i : Z) : string := NilZero.string_of_int (Z.to_int i).

(** [strconv.ParseBool]: [None] stands for the syntax error. *)
Definition ParseBool (s : string) : option bool :=
  if existsb (String.eqb s) ["1"; "t"; "T"; "TRUE"; "true"; "True"] then Some true
  else if existsb (String.eqb s) ["0"; "f"; "F"; "FALSE"; "false"; "False"] then Some false
  else None.

End strconv.

Module cast.

(** [cast.ToString] and [cast.ToBool] on the value kinds above; a failed
    conversion yields the zero value, as the error-dropping variants do. *)
Definition ToString (v : Value) : string :=
  match v with
  | VNil => ""
  | VString s => s
  | VBool b => strconv.FormatBool b
  | VInt i => strconv.Itoa i
  end.

Definition ToBool (v : Value) : bool :=
  match v with
  | VNil => false
  | VString s => default false (strconv.ParseBool s)
  | VBool b => b
  | VInt i => negb (i =? 0)
  end.

End cast.

(** The three accessors of [*viper.Viper] that the factory uses. *)
Record Viper : Type := {
  IsSet : string -> bool;
  GetString : string -> string;
  GetBool : string -> bool
}.

Module viper.

(** An in-memory configuration: dotted keys (stored lower-case, looked up
    case-insensitively) bound to values, read through the cast
    conversions. *)
Definition Get (settings : gmap string Value) (key : string) : Value :=
  default VNil (settings !! strings.ToLower key).

Definition ofSettings (settings : gmap string Value) : Viper := {|
  IsSet key := bool_decide (is_Some (settings !! strings.ToLower key));
  GetString key := cast.ToString (Get settings key);
  GetBool key := cast.ToBool (Get settings key)
|}.

End viper.

(** ** zapcore: levels, primitive encoders, encoder configuration *)

Module zapcore.

(** [zapcore.Level] is an [int8]. *)
Definition Level : Type := Z.

Definition DebugLevel : Level := -1.
Definition InfoLevel : Level := 0.
Definition WarnLevel : Level := 1.
Definition ErrorLevel : Level := 2.
Definition DPanicLevel : Level := 3.
Definition PanicLevel : Level := 4.
Definition FatalLevel : Level := 5.

Definition Level_String (l : Level) : string :=
  if l =? DebugLevel then "debug"
  else if l =? InfoLevel then "info"
  else if l =? WarnLevel then "warn"
  else if l =? ErrorLevel then "error"
  else if l =? DPanicLevel then "dpanic"
  else if l =? PanicLevel then "panic"
  else if l =? FatalLevel then "fatal"
  else "Level(" ++ strconv.Itoa l ++ ")".

Definition Level_CapitalString (l : Level) : string :=
  if l =? DebugLevel then "DEBUG"
  else if l =? InfoLevel then "INFO"
  else if l =? WarnLevel then "WARN"
  else if l =? ErrorLevel then "ERROR"
  else if l =? DPanicLevel then "DPANIC"
  else if l =? PanicLevel then "PANIC"
  else if l =? FatalLevel then "FATAL"
  else "LEVEL(" ++ strconv.Itoa l ++ ")".

(** What a [zapcore.PrimitiveArrayEncoder] has been handed: one entry per
    [Append...] call, in call order, tagged with the method's type. *)
Inductive Primitive : Type :=
  | PBool (b : bool)
  | PInt (i : Z)
  | PString (s : string).

Definition PrimitiveArrayEncoder : Type := list Primitive.

Definition AppendInt (enc : PrimitiveArrayEncoder) (i : Z) : PrimitiveArrayEncoder :=
  (enc ++ [PInt i])%list.

Definition AppendString (enc : PrimitiveArrayEncoder) (s : string) : PrimitiveArrayEncoder :=
  (enc ++ [PString s])%list.

Definition LevelEncoder : Type := Level -> PrimitiveArrayEncoder -> PrimitiveArrayEncoder.

Definition LowercaseLevelEncoder : LevelEncoder :=
  fun l enc => AppendString enc (Level_String l).

Definition CapitalLevelEncoder : LevelEncoder :=
  fun l enc => AppendString enc (Level_CapitalString l).

(** The time, duration, caller and name encoders act on [time.Time],
    [time.Duration] and [runtime] frames; they are kept as the names of the
    functions zapcore ships. *)
Inductive TimeEncoder : Type :=
  | EpochTimeEncoder
  | EpochMillisTimeEncoder
  | EpochNanosTimeEncoder
  | ISO8601TimeEncoder
  | RFC3339TimeEncoder
  | RFC3339NanoTimeEncoder.

Inductive DurationEncoder : Type :=
  | SecondsDurationEncoder
  | NanosDurationEncoder
  | MillisDurationEncoder
  | StringDurationEncoder.

Inductive CallerEncoder : Type :=
  | FullCallerEncoder
  | ShortCallerEncoder.

Inductive NameEncoder : Type :=
  | FullNameEncoder.

Definition OmitKey : string := "".
Definition DefaultLineEnding : string := String (ascii_of_nat 10) EmptyString.

(** [zapcore.EncoderConfig]; a function-typed field that is nil is [None]. *)
Record EncoderConfig : Type := {
  MessageKey : string;
  LevelKey : string;
  TimeKey : string;
  NameKey : string;
  CallerKey : string;
  FunctionKey : string;
  StacktraceKey : string;
  SkipLineEnding : bool;
  LineEnding : string;
  EncodeLevel : option LevelEncoder;
  EncodeTime : option TimeEncoder;
  EncodeDuration : option DurationEncoder;
  EncodeCaller : option CallerEncoder;
  EncodeName : option NameEncoder;
  ConsoleSeparator : string
}.

Definition set_EncodeLevel (f : option LevelEncoder) (c : EncoderConfig) : EncoderConfig := {|
  MessageKey := MessageKey c;
  LevelKey := LevelKey c;
  TimeKey := TimeKey c;
  NameKey := NameKey c;
  CallerKey := CallerKey c;
  FunctionKey := FunctionKey c;
  StacktraceKey := StacktraceKey c;
  SkipLineEnding := SkipLineEnding c;
  LineEnding := LineEnding c;
  EncodeLevel := f;
  EncodeTime := EncodeTime c;
  EncodeDuration := EncodeDuration c;
  EncodeCaller := EncodeCaller c;
  EncodeName := EncodeName c;
  ConsoleSeparator := ConsoleSeparator c
|}.

End zapcore.

(** ** zap: configuration *)

(** [zap.AtomicLevel]: a cell holding the minimum enabled level; the value
    is the cell's content when the core is built. *)
Record AtomicLevel : Type := NewAtomicLevelAt { AtomicLevel_Level : zapcore.Level }.

Record SamplingConfig : Type := {
  Initial : Z;
  Thereafter : Z
}.

(** [zap.Config]. [InitialFields] is a Go map: [None] is the nil map. *)
Record Config : Type := {
  Level : AtomicLevel;
  Development : bool;
  DisableCaller : bool;
  DisableStacktrace : bool;
  Sampling : option SamplingConfig;
  Encoding : string;
  EncoderConfig : zapcore.EncoderConfig;
  OutputPaths : list string;
  ErrorOutputPaths : list string;
  InitialFields : option (gmap string Value)
}.

Definition set_Level (v : AtomicLevel) (c : Config) : Config :=
  {| Level := v; Development := Development c; DisableCaller := DisableCaller c;
     DisableStacktrace := DisableStacktrace c; Sampling := Sampling c;
     Encoding := Encoding c; EncoderConfig := EncoderConfig c;
     OutputPaths := OutputPaths c; ErrorOutputPaths := ErrorOutputPaths c;
     InitialFields := InitialFields c |}.

Definition set_DisableCaller (v : bool) (c : Config) : Config :=
  {| Level := Level c; Development := Development c; DisableCaller := v;
     DisableStacktrace := DisableStacktrace c; Sampling := Sampling c;
     Encoding := Encoding c; EncoderConfig := EncoderConfig c;
     OutputPaths := OutputPaths c; ErrorOutputPaths := ErrorOutputPaths c;
     InitialFields := InitialFields c |}.

Definition set_DisableStacktrace (v : bool) (c : Config) : Config :=
  {| Level := Level c; Development := Development c; DisableCaller := DisableCaller c;
     DisableStacktrace := v; Sampling := Sampling c;
     Encoding := Encoding c; EncoderConfig := EncoderConfig c;
     OutputPaths := OutputPaths c; ErrorOutputPaths := ErrorOutputPaths c;
     InitialFields := InitialFields c |}.

Definition set_Encoding (v : string) (c : Config) : Config :=
  {| Level := Level c; Development := Development c; DisableCaller := DisableCaller c;
     DisableStacktrace := DisableStacktrace c; Sampling := Sampling c;
     Encoding := v; EncoderConfig := EncoderConfig c;
     OutputPaths := OutputPaths c; ErrorOutputPaths := ErrorOutputPaths c;
     InitialFields := InitialFields c |}.

Definition set_EncoderConfig (v : zapcore.EncoderConfig) (c : Config) : Config :=
  {| Level := Level c; Development := Development c; DisableCaller := DisableCaller c;
     DisableStacktrace := DisableStacktrace c; Sampling := Sampling c;
     Encoding := Encoding c; EncoderConfig := v;
     OutputPaths := OutputPaths c; ErrorOutputPaths := ErrorOutputPaths c;
     InitialFields := InitialFields c |}.

Definition set_InitialFields (v : option (gmap string Value)) (c : Config) : Config :=
  {| Level := Level c; Development := Development c; DisableCaller := DisableCaller c;
     DisableStacktrace := DisableStacktrace c; Sampling := Sampling c;
     Encoding := Encoding c; EncoderConfig := EncoderConfig c;
     OutputPaths := OutputPaths c; ErrorOutputPaths := ErrorOutputPaths c;
     InitialFields := v |}.

(** [m[k] = v] on a Go map: a run-time panic when the map is nil. *)
Definition mapassign {R} (m : option (gmap string Value)) (k : string) (v : Value)
  : flow R (option (gmap string Value)) :=
  match m with
  | None => Panic "assignment to entry in nil map"
  | Some fields => Next (Some (<[k := v]> fields))
  end.


(** ** The zap entry points the factory calls

    The default profiles, the level parser and the logger builder belong to
    zap. The factory is stated over them; [Build] stands for
    [Config.Build] applied to no option (it yields a logger or an error),
    [Logger_Core] for the [Core] method of the logger. *)
Class Zap : Type := {
  NewDevelopmentConfig : Config;
  NewProductionConfig : Config;
  ParseAtomicLevel : string -> AtomicLevel * option error;
  Logger : Type;
  Core : Type;
  Build : Config -> Logger + error;
  Logger_Core : Logger -> Core
}.

(** ** stream_gelf.go *)

Definition Name : string := "gelf_stream".

Definition getGelfEncoderConfig : zapcore.EncoderConfig := {|
  zapcore.TimeKey := "timestamp";
  zapcore.LevelKey := "level";
  zapcore.NameKey := "_logger";
  zapcore.CallerKey := "_caller";
  zapcore.FunctionKey := zapcore.OmitKey;
  zapcore.MessageKey := "short_message";
  zapcore.StacktraceKey := "full_message";
  zapcore.LineEnding := zapcore.DefaultLineEnding;
  zapcore.EncodeLevel := Some zapcore.LowercaseLevelEncoder;
  zapcore.EncodeTime := Some zapcore.EpochTimeEncoder;
  zapcore.EncodeDuration := Some zapcore.SecondsDurationEncoder;
  zapcore.EncodeCaller := Some zapcore.ShortCallerEncoder;
  (* fields the literal leaves out take their zero value *)
  zapcore.SkipLineEnding := false;
  zapcore.EncodeName := None;
  zapcore.ConsoleSeparator := ""
|}.

(** [type gelfLevel int] and its [iota] constants. *)
Definition gelfLevel : Type := Z.

Definition EmergencyGelfLvl : gelfLevel := 0.
Definition AlertGelfLvl : gelfLevel := 1.
Definition CriticalGelfLvl : gelfLevel := 2.
Definition ErrorGelfLvl : gelfLevel := 3.
Definition WarningGelfLvl : gelfLevel := 4.
Definition NoticeGelfLvl : gelfLevel := 5.
Definition InformationalGelfLvl : gelfLevel := 6.
Definition DebugGelfLvl : gelfLevel := 7.

Definition lvlRelations : gmap zapcore.Level gelfLevel :=
  <[zapcore.DebugLevel := DebugGelfLvl]>
  (<[zapcore.InfoLevel := InformationalGelfLvl]>
  (<[zapcore.WarnLevel := WarningGelfLvl]>
  (<[zapcore.ErrorLevel := ErrorGelfLvl]>
  (<[zapcore.DPanicLevel := EmergencyGelfLvl]>
  (<[zapcore.PanicLevel := EmergencyGelfLvl]>
  (<[zapcore.FatalLevel := EmergencyGelfLvl]> ∅)))))).

(** Reading a Go map: the zero value of the element type for a key that is
    not in the map. *)
Definition mapaccess (m : gmap zapcore.Level gelfLevel) (k : zapcore.Level) : gelfLevel :=
  default 0 (m !! k).

Definition gelfLvlEncoder : zapcore.LevelEncoder :=
  fun level encoder => zapcore.AppendInt encoder (mapaccess lvlRelations level).

(** What a call leaves its caller with. *)
Inductive completion (R : Type) : Type :=
  | Returns (r : R)
  | Panics (msg : string).
Arguments Returns {R} r.
Arguments Panics {R} msg.

(** A function body ends with a [return] statement: nothing falls through. *)
Definition call {R} (body : flow R Empty_set) : completion R :=
  match body with
  | Next a => match a with end
  | Return r => Returns r
  | Panic msg => Panics msg
  end.

Section Factory.

Context `{zap : Zap}.

(** The pair [(zapcore.Core, error)] returned by [New]; nil is [None]. *)
Definition result : Type := option Core * option error.

(** Lines 43 to 90 of [New]: the logger configuration is assembled. *)
Definition configure (conf : Viper) (path : string) : flow result Config :=
  (rootPath <- index0 (strings.Split path ".") ;;
   let key := rootPath ++ ".development" in
   let loggerConf :=
     if IsSet conf key && GetBool conf key
     then NewDevelopmentConfig
     else NewProductionConfig in
   let loggerConf := set_Encoding "json" loggerConf in
   let loggerConf := set_EncoderConfig getGelfEncoderConfig loggerConf in
   let key := path ++ ".encoding" in
   let loggerConf :=
     if IsSet conf key
     then set_Encoding (GetString conf key) loggerConf
     else loggerConf in
   let loggerConf :=
     set_EncoderConfig
       (zapcore.set_EncodeLevel (Some gelfLvlEncoder) (EncoderConfig loggerConf))
       loggerConf in
   let key := rootPath ++ ".stacktrace" in
   let loggerConf :=
     if IsSet conf key
     then set_DisableStacktrace (String.eqb (GetString conf key) "false") loggerConf
     else loggerConf in
   let key := rootPath ++ ".caller" in
   let loggerConf :=
     if IsSet conf key
     then set_DisableCaller (negb (GetBool conf key)) loggerConf
     else loggerConf in
   let key := path ++ ".level" in
   loggerConf <-
     (if IsSet conf key
      then
        let (lvl, err) := ParseAtomicLevel (GetString conf key) in
        match err with
        | Some _ =>
            Return (None, errors.Wrap err ("cannot parse log level " ++ GetString conf key))
        | None => Next (set_Level lvl loggerConf)
        end
      else Next loggerConf) ;;
   (* version field *)
   loggerConf <-
     (if IsSet conf "app.version"
      then
        fields <- mapassign (InitialFields loggerConf) "version"
                    (VString (GetString conf "app.version")) ;;
        Next (set_InitialFields fields loggerConf)
      else Next loggerConf) ;;
   Next loggerConf)%flow.

(** [GelfStreamZapFactory.New]. *)
Definition New (conf : Viper) (path : string) : completion result :=
  call
    (loggerConf <- configure conf path ;;
     core <-
       match Build loggerConf with
       | inr err => Return (None, errors.Wrap (Some err) "failed to build logger")
       | inl logger => Next (Logger_Core logger)
       end ;;
     Return (Some core, None))%flow.

End Factory.

(** ** zap as shipped

    The data-level content of the zap functions behind [Zap]: the two
    default profiles, level parsing, and what [Config.Build] makes of a
    configuration (which encoder, level, fields and logger options).
    Opening a sink is I/O: the standard streams always open, what any
    other path does is a parameter of [Build]. *)

Module stock.

(** [strconv.Quote] on printable ASCII: the text between double quotes,
    with double quotes and backslashes escaped. *)
Definition dquote : ascii := ascii_of_nat 34.
Definition backslash : ascii := ascii_of_nat 92.

Fixpoint escape (s : string) : string :=
  match s with
  | EmptyString => EmptyString
  | String c r =>
      if (Ascii.eqb c dquote || Ascii.eqb c backslash)%bool
      then String backslash (String c (escape r))
      else String c (escape r)
  end.

Definition Quote (s : string) : string :=
  String dquote (escape s ++ String dquote EmptyString).

(** [Level.unmarshalText]. *)
Definition unmarshalText (text : string) : option zapcore.Level :=
  if existsb (String.eqb text) ["debug"; "DEBUG"] then Some zapcore.DebugLevel
  else if existsb (String.eqb text) ["info"; "INFO"; ""] then Some zapcore.InfoLevel
  else if existsb (String.eqb text) ["warn"; "WARN"] then Some zapcore.WarnLevel
  else if existsb (String.eqb text) ["error"; "ERROR"] then Some zapcore.ErrorLevel
  else if existsb (String.eqb text) ["dpanic"; "DPANIC"] then Some zapcore.DPanicLevel
  else if existsb (String.eqb text) ["panic"; "PANIC"] then Some zapcore.PanicLevel
  else if existsb (String.eqb text) ["fatal"; "FATAL"] then Some zapcore.FatalLevel
  else None.

(** [zapcore.ParseLevel]: the text as it is, then lower-cased. *)
Definition ParseLevel (text : string) : zapcore.Level * option error :=
  match unmarshalText text with
  | Some l => (l, None)
  | None =>
      match unmarshalText (strings.ToLower text) with
      | Some l => (l, None)
      | None => (zapcore.InfoLevel, Some (errorString ("unrecognized level: " ++ Quote text)))
      end
  end.

(** [zap.ParseAtomicLevel]: a fresh cell at [InfoLevel], set to the parsed
    level when parsing succeeds. *)
Definition ParseAtomicLevel (text : string) : AtomicLevel * option error :=
  let a := NewAtomicLevelAt zapcore.InfoLevel in
  match ParseLevel text with
  | (_, Some err) => (a, Some err)
  | (l, None) => (NewAtomicLevelAt l, None)
  end.

Definition NewProductionEncoderConfig : zapcore.EncoderConfig := {|
  zapcore.TimeKey := "ts";
  zapcore.LevelKey := "level";
  zapcore.NameKey := "logger";
  zapcore.CallerKey := "caller";
  zapcore.FunctionKey := zapcore.OmitKey;
  zapcore.MessageKey := "msg";
  zapcore.StacktraceKey := "stacktrace";
  zapcore.LineEnding := zapcore.DefaultLineEnding;
  zapcore.EncodeLevel := Some zapcore.LowercaseLevelEncoder;
  zapcore.EncodeTime := Some zapcore.EpochTimeEncoder;
  zapcore.EncodeDuration := Some zapcore.SecondsDurationEncoder;
  zapcore.EncodeCaller := Some zapcore.ShortCallerEncoder;
  zapcore.SkipLineEnding := false;
  zapcore.EncodeName := None;
  zapcore.ConsoleSeparator := ""
|}.

Definition NewDevelopmentEncoderConfig : zapcore.EncoderConfig := {|
  zapcore.TimeKey := "T";
  zapcore.LevelKey := "L";
  zapcore.NameKey := "N";
  zapcore.CallerKey := "C";
  zapcore.FunctionKey := zapcore.OmitKey;
  zapcore.MessageKey := "M";
  zapcore.StacktraceKey := "S";
  zapcore.LineEnding := zapcore.DefaultLineEnding;
  zapcore.EncodeLevel := Some zapcore.CapitalLevelEncoder;
  zapcore.EncodeTime := Some zapcore.ISO8601TimeEncoder;
  zapcore.EncodeDuration := Some zapcore.StringDurationEncoder;
  zapcore.EncodeCaller := Some zapcore.ShortCallerEncoder;
  zapcore.SkipLineEnding := false;
  zapcore.EncodeName := None;
  zapcore.ConsoleSeparator := ""
|}.

(** [zap.NewProductionConfig]: the composite literal names no
    [InitialFields], so the map is nil. *)
Definition NewProductionConfig : Config := {|
  Level := NewAtomicLevelAt zapcore.InfoLevel;
  Development := false;
  Sampling := Some {| Initial := 100; Thereafter := 100 |};
  Encoding := "json";
  EncoderConfig := NewProductionEncoderConfig;
  OutputPaths := ["stderr"];
  ErrorOutputPaths := ["stderr"];
  DisableCaller := false;
  DisableStacktrace := false;
  InitialFields := None
|}.

(** [zap.NewDevelopmentConfig]: likewise without [InitialFields]. *)
Definition NewDevelopmentConfig : Config := {|
  Level := NewAtomicLevelAt zapcore.DebugLevel;
  Development := true;
  Encoding := "console";
  EncoderConfig := NewDevelopmentEncoderConfig;
  OutputPaths := ["stderr"];
  ErrorOutputPaths := ["stderr"];
  DisableCaller := false;
  DisableStacktrace := false;
  Sampling := None;
  InitialFields := None
|}.

(** The core behind a built logger: encoder name and configuration, level
    cell, the fields added with [With] (sorted by key), and the sampling
    wrapper if any. *)
Record Core : Type := {
  core_encoding : string;
  core_encoderConfig : zapcore.EncoderConfig;
  core_level : AtomicLevel;
  core_fields : list (string * Value);
  core_sampling : option SamplingConfig
}.

(** The logger: its core and the options [buildOptions] selects. *)
Record Logger : Type := {
  logger_core : Core;
  logger_development : bool;
  logger_addCaller : bool;
  logger_addStack : option zapcore.Level
}.

(** Insertion of a binding into a list kept sorted by key ([sort.Strings]
    order on the keys). *)
Fixpoint insertField (kv : string * Value) (l : list (string * Value)) : list (string * Value) :=
  match l with
  | [] => [kv]
  | kv' :: r =>
      if String.leb (fst kv) (fst kv') then kv :: l else kv' :: insertField kv r
  end.

Definition sortedFields (m : option (gmap string Value)) : list (string * Value) :=
  match m with
  | None => []
  | Some fields => foldr insertField [] (map_to_list fields)
  end.

(** [newEncoder]: the checks it makes before calling the constructor that
    [registry] holds for the name. *)
Definition newEncoder (registry : list string) (name : string) (ec : zapcore.EncoderConfig)
  : option error :=
  if (negb (String.eqb (zapcore.TimeKey ec) "") && negb (bool_decide (is_Some (zapcore.EncodeTime ec))))%bool
  then Some (errorString "missing EncodeTime in EncoderConfig")
  else if String.eqb name "" then Some (errorString "no encoder name specified")
  else if existsb (String.eqb name) registry then None
  else Some (errorString ("no encoder registered for name " ++ Quote name)).

(** [openSinks]: the standard streams always open; [openPath] tells what
    opening any other path yields. *)
Fixpoint openSinks (openPath : string -> option error) (paths : list string) : option error :=
  match paths with
  | [] => None
  | p :: r =>
      if (String.eqb p "stdout" || String.eqb p "stderr")%bool
      then openSinks openPath r
      else match openPath p with
           | Some err => Some err
           | None => openSinks openPath r
           end
  end.

(** [Config.Build] without options. *)
Definition Build (registry : list string) (openPath : string -> option error) (cfg : Config)
  : Logger + error :=
  match newEncoder registry (Encoding cfg) (EncoderConfig cfg) with
  | Some err => inr err
  | None =>
      match openSinks openPath (OutputPaths cfg ++ ErrorOutputPaths cfg)%list with
      | Some err => inr err
      | None =>
          inl {| logger_core :=
                   {| core_encoding := Encoding cfg;
                      core_encoderConfig := EncoderConfig cfg;
                      core_level := Level cfg;
                      core_fields := sortedFields (InitialFields cfg);
                      core_sampling := Sampling cfg |};
                 logger_development := Development cfg;
                 logger_addCaller := negb (DisableCaller cfg);
                 logger_addStack :=
                   if DisableStacktrace cfg then None
                   else Some (if Development cfg then zapcore.WarnLevel else zapcore.ErrorLevel) |}
      end
  end.

(** The encoders zap registers at start-up. *)
Definition encoders : list string := ["console"; "json"].

(** An environment in which no file sink can be opened. *)
Definition noFiles (p : string) : option error :=
  Some (errorString ("cannot open " ++ p)).

End stock.

(** zap as shipped, writing to the standard streams only. *)
#[export] Instance zap_stock : Zap := {|
  NewDevelopmentConfig := stock.NewDevelopmentConfig;
  NewProductionConfig := stock.NewProductionConfig;
  ParseAtomicLevel := stock.ParseAtomicLevel;
  Logger := stock.Logger;
  Core := stock.Core;
  Build := stock.Build stock.encoders stock.noFiles;
  Logger_Core := stock.logger_core
|}.

(** ** Notions used to state the properties *)

(** The text before the first dot of a path. *)
Fixpoint beforeDot (s : string) : string :=
  match s with
  | EmptyString => EmptyString
  | String c r => if Ascii.eqb c "."%char then EmptyString else String c (beforeDot r)
  end.

(** The root segment of the factory's path, as [New] computes it. *)
Definition rootSegment (path : string) : string :=
  hd "" (strings.Split path ".").

Section Notions.

Context `{zap : Zap}.

(** The default profile [New] starts from. *)
Definition profile (conf : Viper) (path : string) : Config :=
  if IsSet conf (rootSegment path ++ ".development") && GetBool conf (rootSegment path ++ ".development")
  then NewDevelopmentConfig
  else NewProductionConfig.

(** The level key is absent, or its text parses. *)
Definition levelOk (conf : Viper) (path : string) : Prop :=
  IsSet conf (path ++ ".level") = true ->
  snd (ParseAtomicLevel (GetString conf (path ++ ".level"))) = None.

(** The version key is absent, or the profile's field map is allocated. *)
Definition versionOk (conf : Viper) (path : string) : Prop :=
  IsSet conf "app.version" = true -> InitialFields (profile conf path) <> None.

(** What [New] returns once [Build] has answered on [cfg]. *)
Definition built (cfg : Config) : completion result :=
  match Build cfg with
  | inl logger => Returns (Some (Logger_Core logger), None)
  | inr err => Returns (None, Some (withStack (withMessage err "failed to build logger")))
  end.

End Notions.

(** The native levels the severity table lists. *)
Definition nativeLevels : list zapcore.Level :=
  [zapcore.DebugLevel; zapcore.InfoLevel; zapcore.WarnLevel; zapcore.ErrorLevel;
   zapcore.DPanicLevel; zapcore.PanicLevel; zapcore.FatalLevel].

(** ** Configurations used as test inputs *)

Definition corePath : string := "zap.cores.json".

(** The configuration of the comment above [GelfStreamZapFactory] (the
    leaves the factory reads). *)
Definition conf_yaml : Viper :=
  viper.ofSettings
    (<["zap.cores.json.type" := VString "gelf_stream"]>
    (<["zap.cores.json.level" := VString "debug"]>
    (<["zap.cores.json.encoding" := VString "json"]>
    (<["zap.caller" := VBool true]>
    (<["zap.stacktrace" := VString "error"]>
    (<["zap.development" := VBool true]> ∅)))))).

Definition conf_empty : Viper := viper.ofSettings ∅.

(** The comment's configuration with an application version. *)
Definition conf_yaml_version : Viper :=
  viper.ofSettings
    (<["app.version" := VString "1.2.3"]>
    (<["zap.cores.json.type" := VString "gelf_stream"]>
    (<["zap.cores.json.level" := VString "debug"]>
    (<["zap.cores.json.encoding" := VString "json"]>
    (<["zap.caller" := VBool true]>
    (<["zap.stacktrace" := VString "error"]>
    (<["zap.development" := VBool true]> ∅))))))).

Definition conf_version : Viper :=
  viper.ofSettings (<["app.version" := VString "1.2.3"]> ∅).

Definition conf_bad_level : Viper :=
  viper.ofSettings
    (<["zap.cores.json.level" := VString "not-a-level"]>
    (<["app.version" := VString "1.2.3"]> ∅)).

Definition conf_stacktrace (v : Value) : Viper :=
  viper.ofSettings (<["zap.stacktrace" := v]> ∅).

Definition conf_caller (v : Value) : Viper :=
  viper.ofSettings (<["zap.caller" := v]> ∅).

Definition conf_encoding (v : string) : Viper :=
  viper.ofSettings (<["zap.cores.json.encoding" := VString v]> ∅).

(** ** Notions for the keys the factory reads *)

(** Two configurations answer alike on the six keys [New] reads under
    [path] (for each key, on the accessors [New] calls on it). *)
Definition sameKeys (conf1 conf2 : Viper) (path : string) : Prop :=
  (IsSet conf1 (rootSegment path ++ ".development") = IsSet conf2 (rootSegment path ++ ".development") /\
   GetBool conf1 (rootSegment path ++ ".development") = GetBool conf2 (rootSegment path ++ ".development")) /\
  (IsSet conf1 (path ++ ".encoding") = IsSet conf2 (path ++ ".encoding") /\
   GetString conf1 (path ++ ".encoding") = GetString conf2 (path ++ ".encoding")) /\
  (IsSet conf1 (rootSegment path ++ ".stacktrace") = IsSet conf2 (rootSegment path ++ ".stacktrace") /\
   GetString conf1 (rootSegment path ++ ".stacktrace") = GetString conf2 (rootSegment path ++ ".stacktrace")) /\
  (IsSet conf1 (rootSegment path ++ ".caller") = IsSet conf2 (rootSegment path ++ ".caller") /\
   GetBool conf1 (rootSegment path ++ ".caller") = GetBool conf2 (rootSegment path ++ ".caller")) /\
  (IsSet conf1 (path ++ ".level") = IsSet conf2 (path ++ ".level") /\
   GetString conf1 (path ++ ".level") = GetString conf2 (path ++ ".level")) /\
  (IsSet conf1 "app.version" = IsSet conf2 "app.version" /\
   GetString conf1 "app.version" = GetString conf2 "app.version").

(** The record keys an encoder configuration names (the function key, which
    may be omitted, apart). *)
Definition recordKeys (ec : zapcore.EncoderConfig) : list string :=
  [zapcore.TimeKey ec; zapcore.LevelKey ec; zapcore.NameKey ec;
   zapcore.CallerKey ec; zapcore.MessageKey ec; zapcore.StacktraceKey ec].

(** The comment's configuration with other leaves around the six keys: no
    [type], a [fields] entry, a sibling core. *)
Definition conf_yaml_siblings : Viper :=
  viper.ofSettings
    (<["zap.cores.json.level" := VString "debug"]>
    (<["zap.cores.json.encoding" := VString "json"]>
    (<["zap.cores.console.level" := VString "error"]>
    (<["zap.fields.0.key" := VString "service"]>
    (<["zap.fields.0.value" := VString "example-service-name"]>
    (<["zap.caller" := VBool true]>
    (<["zap.stacktrace" := VString "error"]>
    (<["zap.development" := VBool true]> ∅)))))))).

Definition siblingPath : string := "zap.cores.console".

(** ** The string helpers *)

Lemma splitFrom_nonempty (sep s : string) (skip : nat) (cur : string) :
  strings.splitFrom sep s skip cur <> [].
Proof.
  revert skip cur. induction s as [|c r IH]; intros skip cur; cbn [strings.splitFrom].
  - discriminate.
  - destruct skip as [|k]; [|apply IH].
    destruct (String.prefix sep (String c r)); [discriminate|apply IH].
Qed.

Lemma string_app_assoc (a b c : string) : ((a ++ b) ++ c)%string = (a ++ (b ++ c))%string.
Proof.
  induction a as [|x a IH]; [reflexivity|].
  change (String x ((a ++ b) ++ c) = String x (a ++ (b ++ c)))%string.
  now rewrite IH.
Qed.

Lemma string_app_empty_r (a : string) : (a ++ "")%string = a.
Proof.
  induction a as [|x a IH]; [reflexivity|].
  change (String x (a ++ "") = String x a)%string.
  now rewrite IH.
Qed.

Lemma hd_splitFrom_dot (s cur : string) :
  hd "" (strings.splitFrom "." s O cur) = (cur ++ beforeDot s)%string.
Proof.
  revert cur. induction s as [|c r IH]; intros cur.
  - simpl. now rewrite string_app_empty_r.
  - cbn [strings.splitFrom beforeDot String.prefix].
    destruct (ascii_dec "."%char c) as [<-|Hne].
    + replace (String.prefix "" r) with true by (destruct r; reflexivity).
      simpl. now rewrite string_app_empty_r.
    + assert (Hc : Ascii.eqb c "."%char = false)
        by (apply Ascii.eqb_neq; congruence).
      rewrite Hc, IH, string_app_assoc. reflexivity.
Qed.

Lemma rootSegment_beforeDot (path : string) : rootSegment path = beforeDot path.
Proof. unfold rootSegment, strings.Split. now rewrite hd_splitFrom_dot. Qed.

Lemma index0_Split (R : Type) (path : string) :
  @index0 R (strings.Split path ".") = Next (rootSegment path).
Proof.
  unfold rootSegment, strings.Split.
  pose proof (splitFrom_nonempty "." path O "") as Hne.
  destruct (strings.splitFrom "." path O ""); [contradiction|reflexivity].
Qed.

(** ** The assembled configuration *)

(** Opens [configure] up to its two effectful steps. *)
Ltac open_configure conf path :=
  unfold configure; rewrite index0_Split; cbn [flow_bind];
  fold (profile conf path).

(** With the level step behind and the version key set: each way the keys
    before it may be set, and the map nil or allocated. *)
Ltac case_shared_keys conf path :=
  destruct (IsSet conf (path ++ ".encoding")),
           (IsSet conf (rootSegment path ++ ".stacktrace")),
           (IsSet conf (rootSegment path ++ ".caller"));
  match goal with
  | p : Config |- _ =>
      destruct p as [lv dev dc ds sa en ec op eop [m|]]; cbn;
      [left; eexists; reflexivity | right; auto]
  end.

Section FactoryFacts.

Context `{zap : Zap}.

Implicit Types (conf : Viper) (path : string) (cfg : Config).

(** Every field of a configuration that leaves [configure], in terms of the
    keys read and of the profile selected. *)
Lemma configure_Next_inv conf path cfg :
  configure conf path = Next cfg ->
  Development cfg = Development (profile conf path) /\
  Encoding cfg =
    (if IsSet conf (path ++ ".encoding") then GetString conf (path ++ ".encoding") else "json") /\
  EncoderConfig cfg = zapcore.set_EncodeLevel (Some gelfLvlEncoder) getGelfEncoderConfig /\
  DisableStacktrace cfg =
    (if IsSet conf (rootSegment path ++ ".stacktrace")
     then String.eqb (GetString conf (rootSegment path ++ ".stacktrace")) "false"
     else DisableStacktrace (profile conf path)) /\
  DisableCaller cfg =
    (if IsSet conf (rootSegment path ++ ".caller")
     then negb (GetBool conf (rootSegment path ++ ".caller"))
     else DisableCaller (profile conf path)) /\
  Level cfg =
    (if IsSet conf (path ++ ".level")
     then fst (ParseAtomicLevel (GetString conf (path ++ ".level")))
     else Level (profile conf path)) /\
  InitialFields cfg =
    (if IsSet conf "app.version"
     then insert "version" (VString (GetString conf "app.version")) <$> InitialFields (profile conf path)
     else InitialFields (profile conf path)) /\
  levelOk conf path /\ versionOk conf path.
Proof.
  unfold levelOk, versionOk.
  open_configure conf path. generalize (profile conf path) as p. intros p.
  destruct (IsSet conf (path ++ ".encoding")),
           (IsSet conf (rootSegment path ++ ".stacktrace")),
           (IsSet conf (rootSegment path ++ ".caller")),
           (IsSet conf (path ++ ".level")),
           (IsSet conf "app.version");
    try destruct (ParseAtomicLevel _) as [lvl [e|]];
    destruct p as [lv dev dc ds sa en ec op eop [m|]];
    cbn; intros H; inversion H; subst; clear H; repeat split;
    reflexivity || discriminate.
Qed.

(** The early return: the level key is set and its text does not parse. *)
Lemma configure_Return conf path lvl e :
  IsSet conf (path ++ ".level") = true ->
  ParseAtomicLevel (GetString conf (path ++ ".level")) = (lvl, Some e) ->
  configure conf path =
    Return (None, Some (withStack (withMessage e
              ("cannot parse log level " ++ GetString conf (path ++ ".level"))))).
Proof.
  intros Hset Hparse. open_configure conf path. rewrite Hset, Hparse. reflexivity.
Qed.

(** After the level step only the version store can stop [configure]. *)
Lemma configure_past_level conf path :
  levelOk conf path ->
  (exists cfg, configure conf path = Next cfg) \/
  (configure conf path = Panic "assignment to entry in nil map" /\
   IsSet conf "app.version" = true /\ InitialFields (profile conf path) = None).
Proof.
  unfold levelOk. intros Hlevel. open_configure conf path.
  generalize (profile conf path) as p. intros p.
  destruct (IsSet conf (path ++ ".level")).
  - specialize (Hlevel eq_refl).
    destruct (ParseAtomicLevel _) as [lvl err]. cbn in Hlevel. subst err.
    destruct (IsSet conf "app.version"); [|left; eexists; reflexivity].
    case_shared_keys conf path.
  - destruct (IsSet conf "app.version"); [|left; eexists; reflexivity].
    case_shared_keys conf path.
Qed.

(** [configure] neither returns early nor panics when the level text parses
    and the version store finds an allocated map. *)
Lemma configure_total conf path :
  levelOk conf path -> versionOk conf path ->
  exists cfg, configure conf path = Next cfg.
Proof.
  intros Hlevel Hversion.
  destruct (configure_past_level conf path Hlevel) as [Hnext|(_ & Hset & Hnil)]; [exact Hnext|].
  exfalso. exact (Hversion Hset Hnil).
Qed.

(** [New] hands the assembled configuration to [Build]. *)
Lemma New_of_configure conf path cfg :
  configure conf path = Next cfg -> New conf path = built cfg.
Proof.
  intros H. unfold New, built. rewrite H. cbn [flow_bind].
  destruct (Build cfg); reflexivity.
Qed.

Lemma New_of_Return conf path r :
  configure conf path = Return r -> New conf path = Returns r.
Proof. intros H. unfold New. rewrite H. reflexivity. Qed.

Lemma New_of_Panic conf path msg :
  configure conf path = Panic msg -> New conf path = Panics msg.
Proof. intros H. unfold New. rewrite H. reflexivity. Qed.

(** A core comes out of [New] only through [configure] and [Build]. *)
Lemma New_core_inv conf path core err :
  New conf path = Returns (Some core, err) ->
  err = None /\
  exists cfg logger,
    configure conf path = Next cfg /\ Build cfg = inl logger /\ core = Logger_Core logger.
Proof.
  unfold New. destruct (configure conf path) as [cfg|r|msg] eqn:Hc; cbn [flow_bind call].
  - destruct (Build cfg) as [logger|e] eqn:Hb; cbn; intros H; inversion H; subst.
    split; [reflexivity|]. exists cfg, logger. auto.
  - intros H. inversion H; subst. exfalso.
    revert Hc. open_configure conf path.
    generalize (profile conf path) as p. intros p.
    destruct (IsSet conf (path ++ ".level"));
      [destruct (ParseAtomicLevel _) as [lvl [e|]]|];
      destruct (IsSet conf "app.version");
      destruct (IsSet conf (path ++ ".encoding")),
               (IsSet conf (rootSegment path ++ ".stacktrace")),
               (IsSet conf (rootSegment path ++ ".caller"));
      destruct p as [lv dev dc ds sa en ec op eop [m|]]; cbn; discriminate.
  - discriminate.
Qed.

End FactoryFacts.

(** ** The GELF severity encoder *)

(** C3: on each of the seven native levels the GELF level encoder appends
    one bare integer, the code of the fixed table: debug 7, info 6, warn 4,
    error 3, dpanic 0, panic 0, fatal 0. The appended entry is an integer
    ([PInt]), not a string, and depends on the level alone. *)
Theorem gelfLvlEncoder_table (enc : zapcore.PrimitiveArrayEncoder) :
  gelfLvlEncoder zapcore.DebugLevel enc = (enc ++ [zapcore.PInt 7])%list /\
  gelfLvlEncoder zapcore.InfoLevel enc = (enc ++ [zapcore.PInt 6])%list /\
  gelfLvlEncoder zapcore.WarnLevel enc = (enc ++ [zapcore.PInt 4])%list /\
  gelfLvlEncoder zapcore.ErrorLevel enc = (enc ++ [zapcore.PInt 3])%list /\
  gelfLvlEncoder zapcore.DPanicLevel enc = (enc ++ [zapcore.PInt 0])%list /\
  gelfLvlEncoder zapcore.PanicLevel enc = (enc ++ [zapcore.PInt 0])%list /\
  gelfLvlEncoder zapcore.FatalLevel enc = (enc ++ [zapcore.PInt 0])%list.
Proof. repeat split; reflexivity. Qed.

(** The table has exactly the seven native levels as keys. *)
Lemma lvlRelations_dom (level : zapcore.Level) :
  is_Some (lvlRelations !! level) <-> level ∈ nativeLevels.
Proof.
  unfold nativeLevels. split.
  - intros [g Hg]. unfold lvlRelations in Hg.
    repeat (apply lookup_insert_Some in Hg as [[<- _]|[_ Hg]];
            [repeat ((by left) || right)|]).
    by rewrite lookup_empty in Hg.
  - intros Hin.
    repeat (apply elem_of_cons in Hin as [->|Hin]; [eexists; reflexivity|]).
    by apply elem_of_nil in Hin.
Qed.

(** C7: on a level that is not a key of the severity table the encoder
    appends the zero value 0 (Emergency); it does not fail. *)
Theorem gelfLvlEncoder_unmapped (level : zapcore.Level) (enc : zapcore.PrimitiveArrayEncoder) :
  level ∉ nativeLevels ->
  gelfLvlEncoder level enc = (enc ++ [zapcore.PInt EmergencyGelfLvl])%list.
Proof.
  intros Hout. unfold gelfLvlEncoder, zapcore.AppendInt, mapaccess.
  destruct (lvlRelations !! level) as [g|] eqn:Hlook; [|reflexivity].
  exfalso. apply Hout, lvlRelations_dom. eauto.
Qed.

Lemma gelfLvlEncoder_unmapped_witness :
  (6 ∉ nativeLevels) /\ gelfLvlEncoder 6 [] = [zapcore.PInt 0].
Proof.
  assert (Hout : 6 ∉ nativeLevels).
  { unfold nativeLevels. rewrite !not_elem_of_cons. repeat split; try discriminate.
    apply not_elem_of_nil. }
  split; [exact Hout|]. exact (gelfLvlEncoder_unmapped 6 [] Hout).
Defined.

(** ** The keys read by [New] *)

Section Keys.

Context `{zap : Zap}.

Implicit Types (conf : Viper) (path : string) (cfg : Config).

(** C4: when the key [<rootSegment>.stacktrace] is set, the assembled
    configuration disables stacktrace capture exactly when the string read
    from the key equals the literal "false"; on every other string
    ("true", "TRUE", "yes", a typo) capture stays enabled. *)
Theorem stacktrace_disabled_iff_false conf path cfg :
  configure conf path = Next cfg ->
  IsSet conf (rootSegment path ++ ".stacktrace") = true ->
  (DisableStacktrace cfg = true <->
   GetString conf (rootSegment path ++ ".stacktrace") = "false") /\
  (DisableStacktrace cfg = false <->
   GetString conf (rootSegment path ++ ".stacktrace") <> "false").
Proof.
  intros Hcfg Hset.
  destruct (configure_Next_inv conf path cfg Hcfg) as (_ & _ & _ & Hst & _).
  rewrite Hset in Hst. rewrite Hst. split.
  - apply String.eqb_eq.
  - apply String.eqb_neq.
Qed.

(** C9: when the key [<rootSegment>.caller] is set, caller capture is
    enabled exactly when the boolean read from the key is true, and disabled
    when it is false; when the key is not set, the caller setting of the
    selected default profile is kept. *)
Theorem caller_follows_key conf path cfg :
  configure conf path = Next cfg ->
  (IsSet conf (rootSegment path ++ ".caller") = true ->
   (DisableCaller cfg = false <-> GetBool conf (rootSegment path ++ ".caller") = true) /\
   (DisableCaller cfg = true <-> GetBool conf (rootSegment path ++ ".caller") = false)) /\
  (IsSet conf (rootSegment path ++ ".caller") = false ->
   DisableCaller cfg = DisableCaller (profile conf path)).
Proof.
  intros Hcfg.
  destruct (configure_Next_inv conf path cfg Hcfg) as (_ & _ & _ & _ & Hca & _).
  split; intros Hset; rewrite Hset in Hca; [|exact Hca].
  rewrite Hca. destruct (GetBool conf _); cbn; split; split; congruence.
Qed.

(** C8: the encoding name is "json" unless [<basePath>.encoding] is set, in
    which case it is the string read from that key; in both cases the
    encoder configuration is the GELF one with the GELF level encoder, so
    the override touches no other encoder setting. *)
Theorem encoding_override conf path cfg :
  configure conf path = Next cfg ->
  (IsSet conf (path ++ ".encoding") = false -> Encoding cfg = "json") /\
  (IsSet conf (path ++ ".encoding") = true ->
   Encoding cfg = GetString conf (path ++ ".encoding")) /\
  EncoderConfig cfg = zapcore.set_EncodeLevel (Some gelfLvlEncoder) getGelfEncoderConfig /\
  zapcore.EncodeLevel (EncoderConfig cfg) = Some gelfLvlEncoder.
Proof.
  intros Hcfg.
  destruct (configure_Next_inv conf path cfg Hcfg) as (_ & Hen & Hec & _).
  repeat split.
  - intros Hset. now rewrite Hset in Hen.
  - intros Hset. now rewrite Hset in Hen.
  - exact Hec.
  - now rewrite Hec.
Qed.

(** C5: with the key [<basePath>.level] set, a text that does not parse
    makes [New] return no core and the parse error wrapped under a message
    that names the text; a text that parses becomes the level of the
    assembled configuration. *)
Theorem level_key conf path :
  IsSet conf (path ++ ".level") = true ->
  (forall lvl e,
     ParseAtomicLevel (GetString conf (path ++ ".level")) = (lvl, Some e) ->
     exists wrapped,
       New conf path = Returns (None, Some wrapped) /\
       errors.Unwrap wrapped = Some (withMessage e
         ("cannot parse log level " ++ GetString conf (path ++ ".level"))) /\
       errors.Cause wrapped = errors.Cause e /\
       Error wrapped =
         "cannot parse log level " ++ GetString conf (path ++ ".level") ++ ": " ++ Error e) /\
  (forall lvl,
     ParseAtomicLevel (GetString conf (path ++ ".level")) = (lvl, None) ->
     versionOk conf path ->
     exists cfg,
       configure conf path = Next cfg /\ Level cfg = lvl /\ New conf path = built cfg).
Proof.
  intros Hset. split.
  - intros lvl e Hparse. eexists. split.
    + apply New_of_Return. exact (configure_Return conf path lvl e Hset Hparse).
    + cbn. rewrite string_app_assoc. auto.
  - intros lvl Hparse Hversion.
    assert (Hlevel : levelOk conf path) by (intros _; now rewrite Hparse).
    destruct (configure_total conf path Hlevel Hversion) as [cfg Hcfg].
    exists cfg. split; [exact Hcfg|]. split; [|exact (New_of_configure conf path cfg Hcfg)].
    destruct (configure_Next_inv conf path cfg Hcfg) as (_ & _ & _ & _ & _ & Hlv & _).
    now rewrite Hset, Hparse in Hlv.
Qed.

(** C6: whenever [New] returns a core, the configuration it was built from
    names the record fields after the GELF table: "timestamp", "level",
    "_logger", "_caller", "short_message", "full_message", and omits the
    function-name field. *)
Theorem gelf_field_names conf path core :
  New conf path = Returns (Some core, None) ->
  exists cfg logger,
    configure conf path = Next cfg /\ Build cfg = inl logger /\ core = Logger_Core logger /\
    zapcore.TimeKey (EncoderConfig cfg) = "timestamp" /\
    zapcore.LevelKey (EncoderConfig cfg) = "level" /\
    zapcore.NameKey (EncoderConfig cfg) = "_logger" /\
    zapcore.CallerKey (EncoderConfig cfg) = "_caller" /\
    zapcore.MessageKey (EncoderConfig cfg) = "short_message" /\
    zapcore.StacktraceKey (EncoderConfig cfg) = "full_message" /\
    zapcore.FunctionKey (EncoderConfig cfg) = zapcore.OmitKey.
Proof.
  intros Hnew.
  destruct (New_core_inv conf path core None Hnew) as (_ & cfg & logger & Hcfg & Hb & Hcore).
  exists cfg, logger.
  destruct (configure_Next_inv conf path cfg Hcfg) as (_ & _ & Hec & _).
  rewrite Hec. repeat split; assumption || reflexivity.
Qed.

(** C10: whenever [New] returns a core, the configuration it was built from
    encodes the record time with the epoch (seconds) time encoder and
    durations with the seconds duration encoder, whatever the keys say. *)
Theorem time_and_duration_encoders conf path core :
  New conf path = Returns (Some core, None) ->
  exists cfg logger,
    configure conf path = Next cfg /\ Build cfg = inl logger /\ core = Logger_Core logger /\
    zapcore.EncodeTime (EncoderConfig cfg) = Some zapcore.EpochTimeEncoder /\
    zapcore.EncodeDuration (EncoderConfig cfg) = Some zapcore.SecondsDurationEncoder.
Proof.
  intros Hnew.
  destruct (New_core_inv conf path core None Hnew) as (_ & cfg & logger & Hcfg & Hb & Hcore).
  exists cfg, logger.
  destruct (configure_Next_inv conf path cfg Hcfg) as (_ & _ & Hec & _).
  rewrite Hec. repeat split; assumption || reflexivity.
Qed.

End Keys.

(** ** How a call of [New] ends *)

Section Outcomes.

Context `{zap : Zap}.

Implicit Types (conf : Viper) (path : string) (cfg : Config).

(** [New] never returns a core together with an error, nor neither. *)
Lemma New_returns_one conf path c e :
  New conf path = Returns (c, e) ->
  (exists core, c = Some core /\ e = None) \/ (c = None /\ exists err, e = Some err).
Proof.
  unfold New. destruct (configure conf path) as [cfg|r|msg] eqn:Hc; cbn [flow_bind call].
  - destruct (Build cfg) as [logger|err]; cbn; intros H; inversion H; subst; eauto.
  - intros H. inversion H; subst. revert Hc.
    open_configure conf path. generalize (profile conf path) as p. intros p.
    destruct (IsSet conf (path ++ ".level"));
      [destruct (ParseAtomicLevel _) as [lvl [err|]]|];
      destruct (IsSet conf "app.version");
      destruct (IsSet conf (path ++ ".encoding")),
               (IsSet conf (rootSegment path ++ ".stacktrace")),
               (IsSet conf (rootSegment path ++ ".caller"));
      destruct p as [lv dev dc ds sa en ec op eop [m|]]; cbn;
      intros Hr; inversion Hr; subst; eauto.
  - discriminate.
Qed.

(** The only panic of [New] is the store into a nil field map, reached
    with [app.version] set once the level step is passed. *)
Lemma New_panics_inv conf path msg :
  New conf path = Panics msg ->
  msg = "assignment to entry in nil map" /\
  IsSet conf "app.version" = true /\ InitialFields (profile conf path) = None.
Proof.
  unfold New. destruct (configure conf path) as [cfg|r|m] eqn:Hc; cbn [flow_bind call].
  - destruct (Build cfg); discriminate.
  - discriminate.
  - intros H. inversion H; subst. revert Hc.
    open_configure conf path. generalize (profile conf path) as p. intros p.
    destruct (IsSet conf (path ++ ".level"));
      [destruct (ParseAtomicLevel _) as [lvl [err|]]|];
      destruct (IsSet conf "app.version");
      destruct (IsSet conf (path ++ ".encoding")),
               (IsSet conf (rootSegment path ++ ".stacktrace")),
               (IsSet conf (rootSegment path ++ ".caller"));
      destruct p as [lv dev dc ds sa en ec op eop [fields|]]; cbn;
      intros Hp; inversion Hp; subst; auto.
Qed.

(** Without the version key [New] always returns. *)
Lemma New_returns_without_version conf path :
  IsSet conf "app.version" = false -> exists r, New conf path = Returns r.
Proof.
  intros Hunset. destruct (New conf path) as [r|msg] eqn:Hnew; [eauto|].
  destruct (New_panics_inv conf path msg Hnew) as (_ & Hset & _). congruence.
Qed.

(** With the version key set and a profile whose field map is nil, [New]
    panics as soon as the level step lets it through. *)
Lemma New_panics_on_nil_map conf path :
  levelOk conf path ->
  IsSet conf "app.version" = true ->
  InitialFields (profile conf path) = None ->
  New conf path = Panics "assignment to entry in nil map".
Proof.
  intros Hlevel Hset Hnil. apply New_of_Panic.
  destruct (configure_past_level conf path Hlevel) as [[cfg Hcfg]|(Hpanic & _)];
    [|exact Hpanic].
  destruct (configure_Next_inv conf path cfg Hcfg) as (_ & _ & _ & _ & _ & _ & _ & _ & Hversion).
  exfalso. exact (Hversion Hset Hnil).
Qed.

End Outcomes.

(** ** zap as shipped: what the built core holds *)

Lemma elem_of_insertField (x kv : string * Value) (l : list (string * Value)) :
  x ∈ stock.insertField kv l <-> x = kv \/ x ∈ l.
Proof.
  induction l as [|kv' r IH]; cbn [stock.insertField].
  - rewrite list_elem_of_singleton, elem_of_nil. tauto.
  - destruct (String.leb (fst kv) (fst kv')).
    + apply elem_of_cons.
    + rewrite !elem_of_cons, IH. tauto.
Qed.

Lemma elem_of_sortedFields (k : string) (v : Value) (m : gmap string Value) :
  (k, v) ∈ stock.sortedFields (Some m) <-> m !! k = Some v.
Proof.
  unfold stock.sortedFields. rewrite <- elem_of_map_to_list.
  induction (map_to_list m) as [|kv l IH]; cbn [foldr].
  - reflexivity.
  - rewrite elem_of_insertField, elem_of_cons, IH. reflexivity.
Qed.

(** The core of a logger built by zap holds the configuration's encoding,
    encoder configuration, level and initial fields. *)
Lemma stock_Build_core (registry : list string) (openPath : string -> option error)
    (cfg : Config) (logger : stock.Logger) :
  stock.Build registry openPath cfg = inl logger ->
  stock.core_encoding (stock.logger_core logger) = Encoding cfg /\
  stock.core_encoderConfig (stock.logger_core logger) = EncoderConfig cfg /\
  stock.core_level (stock.logger_core logger) = Level cfg /\
  stock.core_fields (stock.logger_core logger) = stock.sortedFields (InitialFields cfg).
Proof.
  unfold stock.Build.
  destruct (stock.newEncoder _ _ _); [discriminate|].
  destruct (stock.openSinks _ _); [discriminate|].
  intros H. inversion H; subst. cbn. auto.
Qed.

(** ** The factory on concrete configurations (zap as shipped) *)

(** C2: with [app.version] set and nothing else, the call
    [New(conf, "zap.cores.json")] does not return: the store into
    [InitialFields], which the production profile leaves nil, panics. *)
Theorem New_version_panics :
  IsSet conf_version "app.version" = true /\
  InitialFields (@profile zap_stock conf_version corePath) = None /\
  @New zap_stock conf_version corePath = Panics "assignment to entry in nil map".
Proof. repeat split; vm_compute; reflexivity. Qed.

(** With zap as shipped, a configuration in which [app.version] is set
    never yields a core: the configuration that reaches [Build] would have
    passed the store into the profile's field map, which is nil. *)
Lemma stock_version_never_builds (conf : Viper) (path : string) :
  IsSet conf "app.version" = true ->
  ~ (exists core err, @New zap_stock conf path = Returns (Some core, err)).
Proof.
  intros Hset (core & err & Hnew).
  destruct (@New_core_inv zap_stock conf path core err Hnew) as (_ & cfg & _ & Hcfg & _).
  destruct (@configure_Next_inv zap_stock conf path cfg Hcfg)
    as (_ & _ & _ & _ & _ & _ & _ & _ & Hversion).
  apply (Hversion Hset). unfold profile.
  destruct (_ && _); reflexivity.
Qed.

(** C1: on the configuration of the comment above the factory, extended
    with [app.version = "1.2.3"], the level text parses and every other key
    is well formed, yet [New] does not return a core carrying
    [version: "1.2.3"]: the store into the nil [InitialFields] map of the
    development profile panics, so no core is returned at all. *)
Theorem version_store_panics :
  IsSet conf_yaml_version "app.version" = true /\
  GetString conf_yaml_version "app.version" = "1.2.3" /\
  snd (stock.ParseAtomicLevel (GetString conf_yaml_version (corePath ++ ".level"))) = None /\
  InitialFields (@profile zap_stock conf_yaml_version corePath) = None /\
  @New zap_stock conf_yaml_version corePath = Panics "assignment to entry in nil map" /\
  ~ (exists core err, @New zap_stock conf_yaml_version corePath = Returns (Some core, err)).
Proof.
  assert (Hnew : @New zap_stock conf_yaml_version corePath
                 = Panics "assignment to entry in nil map") by (vm_compute; reflexivity).
  repeat split; try (vm_compute; reflexivity); try exact Hnew.
  intros (core & err & Hret). rewrite Hnew in Hret. discriminate.
Qed.

(** The level step comes before the version step: with [app.version] set
    and the level text "not-a-level", [New] returns the wrapped parse error
    and no core; the version key is not reached. *)
Lemma version_set_build_fails :
  IsSet conf_bad_level "app.version" = true /\
  GetString conf_bad_level "app.version" = "1.2.3" /\
  @New zap_stock conf_bad_level corePath =
    Returns (None,
             Some (withStack (withMessage
                     (errorString ("unrecognized level: " ++ stock.Quote "not-a-level"))
                     "cannot parse log level not-a-level"))) /\
  ~ (exists core, @New zap_stock conf_bad_level corePath = Returns (Some core, None)).
Proof.
  assert (Hnew : @New zap_stock conf_bad_level corePath =
    Returns (None,
             Some (withStack (withMessage
                     (errorString ("unrecognized level: " ++ stock.Quote "not-a-level"))
                     "cannot parse log level not-a-level"))))
    by (vm_compute; reflexivity).
  repeat split; try (vm_compute; reflexivity); try exact Hnew.
  intros [core Hcore]. rewrite Hnew in Hcore. discriminate.
Qed.

Lemma stacktrace_disabled_iff_false_witness :
  exists cfg,
    configure (conf_stacktrace (VString "TRUE")) corePath = Next cfg /\
    IsSet (conf_stacktrace (VString "TRUE")) (rootSegment corePath ++ ".stacktrace") = true /\
    DisableStacktrace cfg = false.
Proof.
  destruct (configure_total (conf_stacktrace (VString "TRUE")) corePath) as [cfg Hcfg].
  - intros Hset. vm_compute in Hset. discriminate.
  - intros Hset. vm_compute in Hset. discriminate.
  - exists cfg. split; [exact Hcfg|]. split; [vm_compute; reflexivity|].
    apply (stacktrace_disabled_iff_false (conf_stacktrace (VString "TRUE")) corePath cfg Hcfg).
    + vm_compute; reflexivity.
    + vm_compute. discriminate.
Defined.

Lemma caller_follows_key_witness :
  exists cfg,
    configure (conf_caller (VBool true)) corePath = Next cfg /\ DisableCaller cfg = false.
Proof.
  destruct (configure_total (conf_caller (VBool true)) corePath) as [cfg Hcfg].
  - intros Hset. vm_compute in Hset. discriminate.
  - intros Hset. vm_compute in Hset. discriminate.
  - exists cfg. split; [exact Hcfg|].
    destruct (caller_follows_key (conf_caller (VBool true)) corePath cfg Hcfg) as [Hset _].
    apply Hset; vm_compute; reflexivity.
Defined.

Lemma encoding_override_witness :
  exists cfg,
    configure (conf_encoding "console") corePath = Next cfg /\
    Encoding cfg = "console" /\
    EncoderConfig cfg = zapcore.set_EncodeLevel (Some gelfLvlEncoder) getGelfEncoderConfig.
Proof.
  destruct (configure_total (conf_encoding "console") corePath) as [cfg Hcfg].
  - intros Hset. vm_compute in Hset. discriminate.
  - intros Hset. vm_compute in Hset. discriminate.
  - exists cfg. split; [exact Hcfg|].
    destruct (encoding_override (conf_encoding "console") corePath cfg Hcfg)
      as (_ & Hset & Hec & _).
    split; [|exact Hec]. rewrite Hset; vm_compute; reflexivity.
Defined.

Lemma level_key_witness :
  (exists wrapped,
     New conf_bad_level corePath = Returns (None, Some wrapped) /\
     Error wrapped =
       "cannot parse log level not-a-level: unrecognized level: " ++ stock.Quote "not-a-level") /\
  (exists cfg,
     configure conf_yaml corePath = Next cfg /\
     Level cfg = NewAtomicLevelAt zapcore.DebugLevel).
Proof.
  split.
  - destruct (level_key conf_bad_level corePath) as [Hbad _]; [vm_compute; reflexivity|].
    destruct (Hbad (NewAtomicLevelAt zapcore.InfoLevel)
                (errorString ("unrecognized level: " ++ stock.Quote "not-a-level")))
      as (wrapped & Hnew & _ & _ & Herr); [vm_compute; reflexivity|].
    exists wrapped. split; [exact Hnew|]. rewrite Herr. vm_compute; reflexivity.
  - destruct (level_key conf_yaml corePath) as [_ Hgood]; [vm_compute; reflexivity|].
    destruct (Hgood (NewAtomicLevelAt zapcore.DebugLevel)) as (cfg & Hcfg & Hlv & _).
    + vm_compute; reflexivity.
    + intros Hset. vm_compute in Hset. discriminate.
    + exists cfg. auto.
Defined.

Lemma gelf_field_names_witness :
  exists core cfg,
    New conf_yaml corePath = Returns (Some core, None) /\
    configure conf_yaml corePath = Next cfg /\
    zapcore.MessageKey (EncoderConfig cfg) = "short_message" /\
    zapcore.StacktraceKey (EncoderConfig cfg) = "full_message".
Proof.
  destruct (New conf_yaml corePath) as [[[core|] [e|]]|msg] eqn:Hnew;
    try (vm_compute in Hnew; discriminate).
  destruct (gelf_field_names conf_yaml corePath core Hnew)
    as (cfg & logger & Hcfg & _ & _ & _ & _ & _ & _ & Hmsg & Hst & _).
  exists core, cfg. auto.
Defined.

Lemma time_and_duration_encoders_witness :
  exists core cfg,
    New conf_empty corePath = Returns (Some core, None) /\
    configure conf_empty corePath = Next cfg /\
    zapcore.EncodeTime (EncoderConfig cfg) = Some zapcore.EpochTimeEncoder /\
    zapcore.EncodeDuration (EncoderConfig cfg) = Some zapcore.SecondsDurationEncoder.
Proof.
  destruct (New conf_empty corePath) as [[[core|] [e|]]|msg] eqn:Hnew;
    try (vm_compute in Hnew; discriminate).
  destruct (time_and_duration_encoders conf_empty corePath core Hnew)
    as (cfg & logger & Hcfg & _ & _ & Ht & Hd).
  exists core, cfg. auto.
Defined.

(** ** Further evaluations *)

Example Split_corePath : strings.Split corePath "." = ["zap"; "cores"; "json"].
Proof. reflexivity. Qed.

Example rootSegment_corePath : rootSegment corePath = "zap".
Proof. reflexivity. Qed.

Example rootSegment_no_dot : rootSegment "zap" = "zap".
Proof. reflexivity. Qed.

(** The string "false" disables stacktraces; so does the boolean false,
    which [GetString] renders as "false". *)
Example stacktrace_false :
  configure (conf_stacktrace (VString "false")) corePath
  = Next (set_DisableStacktrace true
            (set_EncoderConfig (zapcore.set_EncodeLevel (Some gelfLvlEncoder) getGelfEncoderConfig)
               (set_Encoding "json" stock.NewProductionConfig))) /\
  configure (conf_stacktrace (VBool false)) corePath
  = configure (conf_stacktrace (VString "false")) corePath.
Proof. split; vm_compute; reflexivity. Qed.

Example stacktrace_other_strings :
  configure (conf_stacktrace (VString "true")) corePath
  = Next (set_DisableStacktrace false
            (set_EncoderConfig (zapcore.set_EncodeLevel (Some gelfLvlEncoder) getGelfEncoderConfig)
               (set_Encoding "json" stock.NewProductionConfig))) /\
  configure (conf_stacktrace (VString "yes")) corePath
  = configure (conf_stacktrace (VString "true")) corePath /\
  configure (conf_stacktrace (VString "False")) corePath
  = configure (conf_stacktrace (VString "true")) corePath.
Proof. repeat split; vm_compute; reflexivity. Qed.

(** An encoding name zap has no encoder for: the builder's error comes back
    wrapped, without a core. *)
Example unknown_encoding :
  New (conf_encoding "xml") corePath
  = Returns (None,
             Some (withStack (withMessage
                     (errorString ("no encoder registered for name " ++ stock.Quote "xml"))
                     "failed to build logger"))).
Proof. vm_compute; reflexivity. Qed.

(** The comment's configuration builds a development-profile core at debug
    level. *)
Example yaml_core :
  exists core,
    New conf_yaml corePath = Returns (Some core, None) /\
    stock.core_level core = NewAtomicLevelAt zapcore.DebugLevel /\
    stock.core_sampling core = None /\
    stock.core_fields core = [].
Proof. eexists. vm_compute. repeat split; reflexivity. Qed.

(** ** More on the assembled configuration *)

Section Assembly.

Context `{zap : Zap}.

Implicit Types (conf : Viper) (path : string) (cfg : Config).

(** The fields of the profile that no statement of [New] assigns. *)
Lemma configure_Next_frame conf path cfg :
  configure conf path = Next cfg ->
  Sampling cfg = Sampling (profile conf path) /\
  OutputPaths cfg = OutputPaths (profile conf path) /\
  ErrorOutputPaths cfg = ErrorOutputPaths (profile conf path).
Proof.
  open_configure conf path. generalize (profile conf path) as p. intros p.
  destruct (IsSet conf (path ++ ".encoding")),
           (IsSet conf (rootSegment path ++ ".stacktrace")),
           (IsSet conf (rootSegment path ++ ".caller")),
           (IsSet conf (path ++ ".level")),
           (IsSet conf "app.version");
    try destruct (ParseAtomicLevel _) as [lvl [e|]];
    destruct p as [lv dev dc ds sa en ec op eop [m|]];
    cbn; intros H; inversion H; subst; clear H; repeat split; reflexivity.
Qed.

(** The only [return] inside the assembly is the one of the level step. *)
Lemma configure_Return_inv conf path r :
  configure conf path = Return r ->
  exists lvl e,
    IsSet conf (path ++ ".level") = true /\
    ParseAtomicLevel (GetString conf (path ++ ".level")) = (lvl, Some e) /\
    r = (None, Some (withStack (withMessage e
           ("cannot parse log level " ++ GetString conf (path ++ ".level"))))).
Proof.
  open_configure conf path. generalize (profile conf path) as p. intros p.
  destruct (IsSet conf (path ++ ".level")) eqn:Hset;
    [destruct (ParseAtomicLevel _) as [lvl [e|]] eqn:Hparse|];
    destruct (IsSet conf "app.version");
    destruct (IsSet conf (path ++ ".encoding")),
             (IsSet conf (rootSegment path ++ ".stacktrace")),
             (IsSet conf (rootSegment path ++ ".caller"));
    destruct p as [lv dev dc ds sa en ec op eop [m|]]; cbn;
    intros Hr; inversion Hr; subst; eauto.
Qed.

Lemma Config_ext (c1 c2 : Config) :
  Level c1 = Level c2 -> Development c1 = Development c2 ->
  DisableCaller c1 = DisableCaller c2 -> DisableStacktrace c1 = DisableStacktrace c2 ->
  Sampling c1 = Sampling c2 -> Encoding c1 = Encoding c2 ->
  EncoderConfig c1 = EncoderConfig c2 -> OutputPaths c1 = OutputPaths c2 ->
  ErrorOutputPaths c1 = ErrorOutputPaths c2 -> InitialFields c1 = InitialFields c2 ->
  c1 = c2.
Proof. destruct c1, c2; cbn; intros; subst; reflexivity. Qed.

End Assembly.

(** ** Properties of [New] beyond the key-by-key ones *)

Section NewProperties.

Context `{zap : Zap}.

Implicit Types (conf : Viper) (path : string) (cfg : Config).

(** X1: [New] panics exactly when the level step lets it through (the level
    key is unset or its text parses), [app.version] is set and the selected
    profile's [InitialFields] map is nil; the panic is then the nil-map
    store. *)
Theorem New_panics_iff conf path msg :
  New conf path = Panics msg <->
  msg = "assignment to entry in nil map" /\
  levelOk conf path /\
  IsSet conf "app.version" = true /\
  InitialFields (profile conf path) = None.
Proof.
  split.
  - intros Hnew.
    destruct (New_panics_inv conf path msg Hnew) as (Hmsg & Hset & Hnil).
    repeat split; try assumption.
    intros Hlevel.
    destruct (ParseAtomicLevel (GetString conf (path ++ ".level"))) as [lvl [e|]] eqn:Hparse;
      [|reflexivity].
    pose proof (New_of_Return conf path _ (configure_Return conf path lvl e Hlevel Hparse)) as Hret.
    rewrite Hret in Hnew. discriminate.
  - intros (-> & Hlevel & Hset & Hnil).
    exact (New_panics_on_nil_map conf path Hlevel Hset Hnil).
Qed.

(** X2: whatever [New] returns is either a core with a nil error, or no core
    with an error that pkg/errors wrapped: the builder's error under
    "failed to build logger", or the level parser's error under "cannot
    parse log level <text>". It never returns a core with an error, two
    nils, or an error of its own making. *)
Theorem New_return_shapes conf path c e :
  New conf path = Returns (c, e) ->
  (exists cfg logger,
     configure conf path = Next cfg /\ Build cfg = inl logger /\
     c = Some (Logger_Core logger) /\ e = None) \/
  (exists cfg inner,
     configure conf path = Next cfg /\ Build cfg = inr inner /\
     c = None /\ e = Some (withStack (withMessage inner "failed to build logger"))) \/
  (exists lvl inner,
     IsSet conf (path ++ ".level") = true /\
     ParseAtomicLevel (GetString conf (path ++ ".level")) = (lvl, Some inner) /\
     c = None /\
     e = Some (withStack (withMessage inner
                 ("cannot parse log level " ++ GetString conf (path ++ ".level"))))).
Proof.
  unfold New. destruct (configure conf path) as [cfg|r|m] eqn:Hc; cbn [flow_bind call].
  - destruct (Build cfg) as [logger|inner] eqn:Hb; cbn; intros H; inversion H; subst.
    + left. exists cfg, logger. auto.
    + right; left. exists cfg, inner. auto.
  - intros H. inversion H; subst.
    destruct (configure_Return_inv conf path _ Hc) as (lvl & inner & Hset & Hparse & Hr).
    inversion Hr; subst. right; right. exists lvl, inner. auto.
  - discriminate.
Qed.

(** X3: when the assembled configuration is refused by [Build], [New]
    returns no core and the builder's error wrapped: the message reads
    "failed to build logger: " followed by the builder's message, and the
    cause is the builder's cause. *)
Theorem New_build_error conf path cfg err :
  configure conf path = Next cfg ->
  Build cfg = inr err ->
  exists wrapped,
    New conf path = Returns (None, Some wrapped) /\
    errors.Unwrap wrapped = Some (withMessage err "failed to build logger") /\
    Error wrapped = "failed to build logger: " ++ Error err /\
    errors.Cause wrapped = errors.Cause err.
Proof.
  intros Hcfg Hb. eexists. split.
  - rewrite (New_of_configure conf path cfg Hcfg). unfold built. rewrite Hb. reflexivity.
  - cbn. auto.
Qed.

(** X4: [New] reads the configuration through six keys only
    ([<root>.development], [<path>.encoding], [<root>.stacktrace],
    [<root>.caller], [<path>.level], [app.version]): two configurations
    that answer alike on them give the same outcome, whatever else they
    hold. *)
Theorem New_reads_six_keys conf1 conf2 path :
  sameKeys conf1 conf2 path -> New conf1 path = New conf2 path.
Proof.
  intros ((Hd1 & Hd2) & (He1 & He2) & (Hs1 & Hs2) & (Hc1 & Hc2) & (Hl1 & Hl2) & (Hv1 & Hv2)).
  unfold New, configure. rewrite !index0_Split. cbn [flow_bind].
  rewrite Hd1, Hd2, He1, He2, Hs1, Hs2, Hc1, Hc2, Hl1, Hl2, Hv1, Hv2.
  reflexivity.
Qed.

(** X5: the assembled configuration keeps the development flag, the
    sampling policy and the output and error-output paths of the profile it
    started from: the development profile when [<root>.development] is set
    and true, the production profile when the key is unset or false. *)
Theorem profile_fields_kept conf path cfg :
  configure conf path = Next cfg ->
  (IsSet conf (rootSegment path ++ ".development") = true ->
   GetBool conf (rootSegment path ++ ".development") = true ->
   Development cfg = Development NewDevelopmentConfig /\
   Sampling cfg = Sampling NewDevelopmentConfig /\
   OutputPaths cfg = OutputPaths NewDevelopmentConfig /\
   ErrorOutputPaths cfg = ErrorOutputPaths NewDevelopmentConfig) /\
  (IsSet conf (rootSegment path ++ ".development") = false \/
   GetBool conf (rootSegment path ++ ".development") = false ->
   Development cfg = Development NewProductionConfig /\
   Sampling cfg = Sampling NewProductionConfig /\
   OutputPaths cfg = OutputPaths NewProductionConfig /\
   ErrorOutputPaths cfg = ErrorOutputPaths NewProductionConfig).
Proof.
  intros Hcfg.
  destruct (configure_Next_inv conf path cfg Hcfg) as (Hdev & _).
  destruct (configure_Next_frame conf path cfg Hcfg) as (Hsa & Hop & Heop).
  rewrite Hdev, Hsa, Hop, Heop. unfold profile. split.
  - intros -> ->. cbn. auto.
  - intros [-> | ->]; [|rewrite andb_false_r]; cbn; auto.
Qed.

(** X6: a key that is not set leaves the profile's value in place: without
    [<root>.stacktrace] the stacktrace switch, without [<path>.level] the
    level, without [app.version] the initial fields (nil included) are
    those of the selected profile. *)
Theorem unset_keys_keep_profile conf path cfg :
  configure conf path = Next cfg ->
  (IsSet conf (rootSegment path ++ ".stacktrace") = false ->
   DisableStacktrace cfg = DisableStacktrace (profile conf path)) /\
  (IsSet conf (path ++ ".level") = false -> Level cfg = Level (profile conf path)) /\
  (IsSet conf "app.version" = false ->
   InitialFields cfg = InitialFields (profile conf path)).
Proof.
  intros Hcfg.
  destruct (configure_Next_inv conf path cfg Hcfg) as (_ & _ & _ & Hst & _ & Hlv & Hif & _).
  repeat split; intros Hunset.
  - now rewrite Hunset in Hst.
  - now rewrite Hunset in Hlv.
  - now rewrite Hunset in Hif.
Qed.

(** X7: two paths with the same root segment, read from one configuration,
    give configurations that differ at most in the encoding name and the
    level: profile, stacktrace and caller switches, encoder configuration
    and initial fields are shared. *)
Theorem same_root_same_settings conf path1 path2 cfg1 cfg2 :
  rootSegment path1 = rootSegment path2 ->
  configure conf path1 = Next cfg1 ->
  configure conf path2 = Next cfg2 ->
  cfg2 = set_Level (Level cfg2) (set_Encoding (Encoding cfg2) cfg1).
Proof.
  intros Hroot H1 H2.
  destruct (configure_Next_inv conf path1 cfg1 H1) as (Hd1 & _ & Hec1 & Hs1 & Hc1 & _ & Hf1 & _).
  destruct (configure_Next_inv conf path2 cfg2 H2) as (Hd2 & _ & Hec2 & Hs2 & Hc2 & _ & Hf2 & _).
  destruct (configure_Next_frame conf path1 cfg1 H1) as (Hsa1 & Hop1 & Heop1).
  destruct (configure_Next_frame conf path2 cfg2 H2) as (Hsa2 & Hop2 & Heop2).
  assert (Hp : profile conf path1 = profile conf path2)
    by (unfold profile; now rewrite Hroot).
  rewrite Hroot, Hp in *.
  apply Config_ext; cbn; congruence.
Qed.

(** X8: with [app.version] unset [New] never panics: it returns, for every
    configuration and every path (the empty path included). *)
Theorem New_never_panics_without_version conf path :
  IsSet conf "app.version" = false ->
  (forall msg, New conf path <> Panics msg) /\ exists r, New conf path = Returns r.
Proof.
  intros Hunset.
  assert (Hno : forall msg, New conf path <> Panics msg).
  { intros msg Hnew.
    destruct (New_panics_inv conf path msg Hnew) as (_ & Hset & _). congruence. }
  split; [exact Hno|].
  destruct (New conf path) as [r|msg] eqn:Hnew; [eauto|].
  exfalso. exact (Hno msg eq_refl).
Qed.

(** X9: in every assembled configuration the six record keys are non-empty
    and pairwise distinct, and none of them is "version", the name under
    which [app.version] is injected. *)
Theorem record_keys_distinct conf path cfg :
  configure conf path = Next cfg ->
  NoDup ("version" :: recordKeys (EncoderConfig cfg)) /\
  "" ∉ recordKeys (EncoderConfig cfg).
Proof.
  intros Hcfg.
  destruct (configure_Next_inv conf path cfg Hcfg) as (_ & _ & Hec & _).
  rewrite Hec. split.
  - apply (bool_decide_unpack _). vm_compute. reflexivity.
  - apply (bool_decide_unpack _). vm_compute. reflexivity.
Qed.

End NewProperties.

(** ** More on the severity encoder and the root segment *)

(** The table read as a function of the level. *)
Lemma lvlRelations_cases (level : zapcore.Level) :
  (level = zapcore.DebugLevel /\ mapaccess lvlRelations level = DebugGelfLvl) \/
  (level = zapcore.InfoLevel /\ mapaccess lvlRelations level = InformationalGelfLvl) \/
  (level = zapcore.WarnLevel /\ mapaccess lvlRelations level = WarningGelfLvl) \/
  (level = zapcore.ErrorLevel /\ mapaccess lvlRelations level = ErrorGelfLvl) \/
  ((level < zapcore.DebugLevel \/ zapcore.ErrorLevel < level) /\
   mapaccess lvlRelations level = EmergencyGelfLvl).
Proof.
  destruct (decide (level ∈ nativeLevels)) as [Hin|Hout].
  - unfold nativeLevels in Hin.
    repeat (apply elem_of_cons in Hin as [->|Hin]);
      [tauto|tauto|tauto|tauto| | | |by apply elem_of_nil in Hin];
      (do 4 right; split; [right; reflexivity|reflexivity]).
  - do 4 right. split.
    + unfold nativeLevels in Hout. rewrite !not_elem_of_cons in Hout.
      unfold zapcore.DebugLevel, zapcore.InfoLevel, zapcore.WarnLevel, zapcore.ErrorLevel in *.
      lia.
    + unfold mapaccess.
      destruct (lvlRelations !! level) as [g|] eqn:Hlook; [|reflexivity].
      exfalso. apply Hout, lvlRelations_dom. eauto.
Qed.

(** X10: whatever the level, the encoder appends one integer that is a GELF
    severity between 0 and 7, and more precisely one of Emergency 0,
    Error 3, Warning 4, Informational 6, Debug 7: Alert 1, Critical 2 and
    Notice 5 are never emitted. *)
Theorem gelfLvlEncoder_codes (level : zapcore.Level) (enc : zapcore.PrimitiveArrayEncoder) :
  exists code,
    gelfLvlEncoder level enc = (enc ++ [zapcore.PInt code])%list /\
    EmergencyGelfLvl <= code <= DebugGelfLvl /\
    code ∈ [EmergencyGelfLvl; ErrorGelfLvl; WarningGelfLvl; InformationalGelfLvl; DebugGelfLvl] /\
    code <> AlertGelfLvl /\ code <> CriticalGelfLvl /\ code <> NoticeGelfLvl.
Proof.
  exists (mapaccess lvlRelations level). split; [reflexivity|].
  destruct (lvlRelations_cases level) as [[_ ->]|[[_ ->]|[[_ ->]|[[_ ->]|[_ ->]]]]];
    (split; [cbv; split; discriminate|]);
    (split; [repeat ((by left) || right)|repeat split; discriminate]).
Qed.

(** X11: from debug upwards the GELF code never grows with the native
    level: a more severe native level gets a numerically lower or equal
    code. *)
Theorem gelf_code_antitone (l1 l2 : zapcore.Level) :
  zapcore.DebugLevel <= l1 -> l1 <= l2 ->
  mapaccess lvlRelations l2 <= mapaccess lvlRelations l1.
Proof.
  intros Hlow Hle.
  destruct (lvlRelations_cases l1) as [[E1 ->]|[[E1 ->]|[[E1 ->]|[[E1 ->]|[E1 ->]]]]];
    destruct (lvlRelations_cases l2) as [[E2 ->]|[[E2 ->]|[[E2 ->]|[[E2 ->]|[E2 ->]]]]];
    unfold zapcore.DebugLevel, zapcore.InfoLevel, zapcore.WarnLevel, zapcore.ErrorLevel,
      DebugGelfLvl, InformationalGelfLvl, WarningGelfLvl, ErrorGelfLvl, EmergencyGelfLvl in *;
    lia.
Qed.

(** X12: Emergency (0) is the code of every level other than debug, info,
    warn and error, and of no other; on those four levels the encoder is
    injective. *)
Theorem gelf_code_emergency_iff (level : zapcore.Level) :
  (mapaccess lvlRelations level = EmergencyGelfLvl <->
   level ∉ [zapcore.DebugLevel; zapcore.InfoLevel; zapcore.WarnLevel; zapcore.ErrorLevel]) /\
  (forall other : zapcore.Level,
     mapaccess lvlRelations level <> EmergencyGelfLvl ->
     mapaccess lvlRelations other = mapaccess lvlRelations level -> other = level).
Proof.
  split.
  - rewrite !not_elem_of_cons.
    destruct (lvlRelations_cases level) as [[E ->]|[[E ->]|[[E ->]|[[E ->]|[E ->]]]]];
      unfold zapcore.DebugLevel, zapcore.InfoLevel, zapcore.WarnLevel, zapcore.ErrorLevel,
        DebugGelfLvl, InformationalGelfLvl, WarningGelfLvl, ErrorGelfLvl, EmergencyGelfLvl in *;
      (split; [discriminate || (intros _; repeat split; try lia; apply not_elem_of_nil)
              | intros (? & ? & ? & ? & _); lia || reflexivity]).
  - intros other.
    destruct (lvlRelations_cases level) as [[E ->]|[[E ->]|[[E ->]|[[E ->]|[E ->]]]]];
      destruct (lvlRelations_cases other) as [[E' ->]|[[E' ->]|[[E' ->]|[[E' ->]|[E' ->]]]]];
      unfold DebugGelfLvl, InformationalGelfLvl, WarningGelfLvl, ErrorGelfLvl, EmergencyGelfLvl;
      intros Hne Heq; congruence.
Qed.

Lemma beforeDot_no_dot (s : string) : "."%char ∉ list_ascii_of_string (beforeDot s).
Proof.
  induction s as [|c r IH]; cbn [beforeDot].
  - apply not_elem_of_nil.
  - destruct (Ascii.eqb c ".") eqn:Hc; cbn [list_ascii_of_string].
    + apply not_elem_of_nil.
    + apply not_elem_of_cons. split; [|exact IH].
      apply Ascii.eqb_neq in Hc. congruence.
Qed.

Lemma beforeDot_prefix (s : string) :
  s = beforeDot s \/ exists rest, s = (beforeDot s ++ "." ++ rest)%string.
Proof.
  induction s as [|c r IH]; cbn [beforeDot].
  - left. reflexivity.
  - destruct (Ascii.eqb c ".") eqn:Hc.
    + apply Ascii.eqb_eq in Hc. subst c. right. exists r. reflexivity.
    + destruct IH as [IH|[rest IH]].
      * left. now rewrite <- IH.
      * right. exists rest.
        change (String c r = String c (beforeDot r ++ "." ++ rest))%string.
        now rewrite <- IH.
Qed.

(** X13: indexing the split path never panics, and the root segment is the
    text before the first dot: it holds no dot, and the path is either the
    root segment itself (a path without dot) or the root segment, a dot and
    a remainder. *)
Theorem rootSegment_is_first_segment (path : string) :
  @index0 unit (strings.Split path ".") = Next (rootSegment path) /\
  ("."%char ∉ list_ascii_of_string (rootSegment path)) /\
  (path = rootSegment path \/ exists rest, path = (rootSegment path ++ "." ++ rest)%string) /\
  rootSegment (rootSegment path) = rootSegment path.
Proof.
  split; [apply index0_Split|].
  rewrite !rootSegment_beforeDot. split; [apply beforeDot_no_dot|]. split; [apply beforeDot_prefix|].
  generalize (beforeDot_no_dot path). generalize (beforeDot path) as s.
  induction s as [|c r IH]; cbn [beforeDot list_ascii_of_string]; [reflexivity|].
  rewrite not_elem_of_cons. intros [Hne Hrest].
  destruct (Ascii.eqb c ".") eqn:Hc.
  - apply Ascii.eqb_eq in Hc. congruence.
  - now rewrite IH.
Qed.

(** ** The further properties on concrete configurations *)

Lemma New_return_shapes_witness :
  exists cfg logger,
    configure conf_yaml corePath = Next cfg /\ Build cfg = inl logger /\
    New conf_yaml corePath = Returns (Some (Logger_Core logger), None).
Proof.
  destruct (New conf_yaml corePath) as [[c e]|msg] eqn:Hnew;
    [|vm_compute in Hnew; discriminate].
  destruct (New_return_shapes conf_yaml corePath c e Hnew)
    as [(cfg & logger & Hcfg & Hb & -> & ->)
       |[(cfg & inner & Hcfg & Hb & -> & ->)|(lvl & inner & Hset & Hparse & _)]].
  - exists cfg, logger. auto.
  - vm_compute in Hnew. discriminate.
  - vm_compute in Hparse. discriminate.
Defined.

Lemma New_build_error_witness :
  exists cfg wrapped,
    configure (conf_encoding "xml") corePath = Next cfg /\
    New (conf_encoding "xml") corePath = Returns (None, Some wrapped) /\
    Error wrapped =
      "failed to build logger: no encoder registered for name " ++ stock.Quote "xml".
Proof.
  destruct (configure_total (conf_encoding "xml") corePath) as [cfg Hcfg].
  - intros Hset. vm_compute in Hset. discriminate.
  - intros Hset. vm_compute in Hset. discriminate.
  - assert (Hb : Build cfg =
                 inr (errorString ("no encoder registered for name " ++ stock.Quote "xml"))).
    { assert (Hv : configure (conf_encoding "xml") corePath =
                   Next (set_EncoderConfig
                           (zapcore.set_EncodeLevel (Some gelfLvlEncoder) getGelfEncoderConfig)
                           (set_Encoding "xml" stock.NewProductionConfig)))
        by (vm_compute; reflexivity).
      rewrite Hv in Hcfg. inversion Hcfg. vm_compute; reflexivity. }
    destruct (New_build_error (conf_encoding "xml") corePath cfg _ Hcfg Hb)
      as (wrapped & Hnew & _ & Herr & _).
    exists cfg, wrapped. split; [exact Hcfg|]. split; [exact Hnew|].
    rewrite Herr. vm_compute; reflexivity.
Defined.

Lemma New_reads_six_keys_witness :
  sameKeys conf_yaml conf_yaml_siblings corePath /\
  New conf_yaml corePath = New conf_yaml_siblings corePath.
Proof.
  assert (Hsame : sameKeys conf_yaml conf_yaml_siblings corePath)
    by (repeat split; vm_compute; reflexivity).
  split; [exact Hsame|]. exact (New_reads_six_keys conf_yaml conf_yaml_siblings corePath Hsame).
Defined.

Lemma profile_fields_kept_witness :
  exists cfg,
    configure conf_yaml corePath = Next cfg /\
    Development cfg = true /\ Sampling cfg = None /\ OutputPaths cfg = ["stderr"].
Proof.
  destruct (configure_total conf_yaml corePath) as [cfg Hcfg].
  - intros _. vm_compute; reflexivity.
  - intros Hset. vm_compute in Hset. discriminate.
  - destruct (profile_fields_kept conf_yaml corePath cfg Hcfg) as [Hdev _].
    destruct Hdev as (Hd & Hs & Ho & _); [vm_compute; reflexivity|vm_compute; reflexivity|].
    exists cfg. auto.
Defined.

Lemma unset_keys_keep_profile_witness :
  exists cfg,
    configure conf_empty corePath = Next cfg /\
    DisableStacktrace cfg = false /\
    Level cfg = NewAtomicLevelAt zapcore.InfoLevel /\
    InitialFields cfg = None.
Proof.
  destruct (configure_total conf_empty corePath) as [cfg Hcfg].
  - intros Hset. vm_compute in Hset. discriminate.
  - intros Hset. vm_compute in Hset. discriminate.
  - destruct (unset_keys_keep_profile conf_empty corePath cfg Hcfg) as (Hst & Hlv & Hif).
    exists cfg. split; [exact Hcfg|].
    rewrite Hst, Hlv, Hif by (vm_compute; reflexivity).
    repeat split; vm_compute; reflexivity.
Defined.

Lemma same_root_same_settings_witness :
  exists cfg1 cfg2,
    configure conf_yaml_siblings corePath = Next cfg1 /\
    configure conf_yaml_siblings siblingPath = Next cfg2 /\
    cfg2 = set_Level (NewAtomicLevelAt zapcore.ErrorLevel) (set_Encoding "json" cfg1).
Proof.
  destruct (configure_total conf_yaml_siblings corePath) as [cfg1 H1].
  { intros _. vm_compute; reflexivity. }
  { intros Hset. vm_compute in Hset. discriminate. }
  destruct (configure_total conf_yaml_siblings siblingPath) as [cfg2 H2].
  { intros _. vm_compute; reflexivity. }
  { intros Hset. vm_compute in Hset. discriminate. }
  exists cfg1, cfg2. split; [exact H1|]. split; [exact H2|].
  pose proof (same_root_same_settings conf_yaml_siblings corePath siblingPath cfg1 cfg2
                eq_refl H1 H2) as Heq.
  destruct (configure_Next_inv conf_yaml_siblings siblingPath cfg2 H2)
    as (_ & Hen & _ & _ & _ & Hlv & _).
  rewrite Heq at 1. f_equal.
  - rewrite Hlv. vm_compute; reflexivity.
  - f_equal. rewrite Hen. vm_compute; reflexivity.
Defined.

Lemma New_never_panics_without_version_witness :
  IsSet conf_yaml "app.version" = false /\ exists r, New conf_yaml corePath = Returns r.
Proof.
  assert (Hunset : IsSet conf_yaml "app.version" = false) by (vm_compute; reflexivity).
  split; [exact Hunset|].
  exact (proj2 (New_never_panics_without_version conf_yaml corePath Hunset)).
Defined.

Lemma record_keys_distinct_witness :
  exists cfg,
    configure conf_empty corePath = Next cfg /\
    NoDup ("version" :: recordKeys (EncoderConfig cfg)).
Proof.
  destruct (configure_total conf_empty corePath) as [cfg Hcfg].
  - intros Hset. vm_compute in Hset. discriminate.
  - intros Hset. vm_compute in Hset. discriminate.
  - exists cfg. split; [exact Hcfg|].
    exact (proj1 (record_keys_distinct conf_empty corePath cfg Hcfg)).
Defined.

Lemma gelf_code_antitone_witness :
  zapcore.DebugLevel <= zapcore.InfoLevel /\ zapcore.InfoLevel <= zapcore.DPanicLevel /\
  mapaccess lvlRelations zapcore.DPanicLevel <= mapaccess lvlRelations zapcore.InfoLevel.
Proof.
  assert (H1 : zapcore.DebugLevel <= zapcore.InfoLevel) by (vm_compute; discriminate).
  assert (H2 : zapcore.InfoLevel <= zapcore.DPanicLevel) by (vm_compute; discriminate).
  split; [exact H1|]. split; [exact H2|].
  exact (gelf_code_antitone zapcore.InfoLevel zapcore.DPanicLevel H1 H2).
Defined.
